(** * To rent or to own: the financial simulation engine

    A shallow embedding of [utils.py] (the [Parameters] data class, the
    [FinancialStatus] simulator and [get_monthly_mortgage_repayment]) and of
    the two functions of [to_rent_or_to_own.py] that drive it
    ([define_inputs] and [simulate]).

    Numeric model.  Python floats are read as exact real numbers: every
    [+], [-], [*] is the operation of [R], and rounding, overflow and
    non-finite values are not represented.  Python integers are [Z].
    A Python division whose divisor may be zero is fallible
    ([ZeroDivisionError]); divisions by the constant [MONTHS] are total.
    The float power operator [**] is a parameter of the development (see
    [Section Engine]). *)

From Stdlib Require Import Reals ZArith List String Lia Lra.
Import ListNotations.

Local Open Scope R_scope.

(** ** Python exceptions and fallible computations *)

Inductive exn : Type :=
| ValueError (msg : string)
| ZeroDivisionError.

Inductive result (A : Type) : Type :=
| Ok (a : A)
| Raise (e : exn).

Arguments Ok {A} a.
Arguments Raise {A} e.

Definition bind {A B : Type} (m : result A) (k : A -> result B) : result B :=
  match m with
  | Ok a => k a
  | Raise e => Raise e
  end.

Notation "x <- m ;; k" := (bind m (fun x => k))
  (at level 61, m at next level, right associativity).

(** Python's [a / b] on numbers: raises when the divisor is zero. *)
Definition truediv (a b : R) : result R :=
  if Req_dec_T b 0 then Raise ZeroDivisionError else Ok (a / b).

(** ** utils.py: constants and data *)

Definition MONTHS : Z := 12.

Inductive Decision : Type :=
| RENT
| BUY.

(** What a caller may pass as the [decision] argument: a member of the
    enumeration, or any other Python object (shown by its string form). *)
Inductive decision_value : Type :=
| Member (d : Decision)
| NotMember (repr : string).

Record Parameters : Type := mkParameters {
  roi_real_estate : R;
  roi_stocks : R;
  mortgage_interest_rate : R;
  base_house_misc_costs : R;
  downpayment_ratio : R;
  base_house_equity : R;
  price_to_rent_ratio : R;
  base_rent_per_year : R;
  num_years : Z;
  monthly_income : R
}.

(** [Parameters()]: the data class with every field at its default. *)
Definition Parameters_default : Parameters :=
  mkParameters 0 0 0 0 0 0 0 0 0%Z 0.

(** ** dateutil.relativedelta, years and months only

    The constructor normalises: a month count beyond 11 in absolute value
    is carried into the years ([relativedelta._fix]). *)

Record relativedelta : Type := mkDelta {
  years : Z;
  months : Z
}.

Definition _sign (x : Z) : Z := if (x <? 0)%Z then (-1)%Z else 1%Z.

Definition _fix (d : relativedelta) : relativedelta :=
  if (11 <? Z.abs (months d))%Z then
    let s := _sign (months d) in
    let div := ((months d * s) / 12)%Z in
    let mod_ := ((months d * s) mod 12)%Z in
    mkDelta (years d + div * s)%Z (mod_ * s)%Z
  else d.

Definition relativedelta_new (y m : Z) : relativedelta := _fix (mkDelta y m).

Definition relativedelta_add (self other : relativedelta) : relativedelta :=
  relativedelta_new (years other + years self)%Z (months other + months self)%Z.

(** ** The simulator state *)

Record FinancialStatus : Type := mkStatus {
  params : Parameters;
  decision : decision_value;
  self_monthly_income : R;
  equity_real_estate : R;
  equity_stocks : R;
  latest_taxable_house_value : R;
  remaining_mortgage_equity : R;
  monthly_expenses : R;
  _cumulative_real_estate_roi : R;
  time : relativedelta
}.

(** Attribute assignments [self.f = v]. *)
Definition set_equity_real_estate (v : R) (s : FinancialStatus) :=
  mkStatus (params s) (decision s) (self_monthly_income s) v (equity_stocks s)
    (latest_taxable_house_value s) (remaining_mortgage_equity s)
    (monthly_expenses s) (_cumulative_real_estate_roi s) (time s).

Definition set_equity_stocks (v : R) (s : FinancialStatus) :=
  mkStatus (params s) (decision s) (self_monthly_income s)
    (equity_real_estate s) v (latest_taxable_house_value s)
    (remaining_mortgage_equity s) (monthly_expenses s)
    (_cumulative_real_estate_roi s) (time s).

Definition set_latest_taxable_house_value (v : R) (s : FinancialStatus) :=
  mkStatus (params s) (decision s) (self_monthly_income s)
    (equity_real_estate s) (equity_stocks s) v (remaining_mortgage_equity s)
    (monthly_expenses s) (_cumulative_real_estate_roi s) (time s).

Definition set_remaining_mortgage_equity (v : R) (s : FinancialStatus) :=
  mkStatus (params s) (decision s) (self_monthly_income s)
    (equity_real_estate s) (equity_stocks s) (latest_taxable_house_value s) v
    (monthly_expenses s) (_cumulative_real_estate_roi s) (time s).

Definition set_monthly_expenses (v : R) (s : FinancialStatus) :=
  mkStatus (params s) (decision s) (self_monthly_income s)
    (equity_real_estate s) (equity_stocks s) (latest_taxable_house_value s)
    (remaining_mortgage_equity s) v (_cumulative_real_estate_roi s) (time s).

Definition set_cumulative_real_estate_roi (v : R) (s : FinancialStatus) :=
  mkStatus (params s) (decision s) (self_monthly_income s)
    (equity_real_estate s) (equity_stocks s) (latest_taxable_house_value s)
    (remaining_mortgage_equity s) (monthly_expenses s) v (time s).

Definition set_time (v : relativedelta) (s : FinancialStatus) :=
  mkStatus (params s) (decision s) (self_monthly_income s)
    (equity_real_estate s) (equity_stocks s) (latest_taxable_house_value s)
    (remaining_mortgage_equity s) (monthly_expenses s)
    (_cumulative_real_estate_roi s) v.

(** Queries that read the state only. *)

Definition monthly_excess (self : FinancialStatus) : R :=
  self_monthly_income self - monthly_expenses self.

Definition monthly_misc_costs (self : FinancialStatus) : R :=
  base_house_misc_costs (params self) * latest_taxable_house_value self
  / IZR MONTHS.

Definition net_worth (self : FinancialStatus) : R :=
  equity_real_estate self + equity_stocks self
  - remaining_mortgage_equity self.

(** Python's [str] of an enumeration member, as the f-string prints it. *)
Definition Decision_str (d : decision_value) : string :=
  match d with
  | Member RENT => "Decision.RENT"
  | Member BUY => "Decision.BUY"
  | NotMember repr => repr
  end.

(** ** numpy_financial.pmt

    [when] is ['end'] or ['begin']; the function works on numpy values, so
    its divisions do not raise: where numpy would give a non-finite value
    (a zero [fact]) the quotient below carries no meaning, and the results
    that depend on it assume a non-zero number of periods. *)

Inductive when_value : Type :=
| when_end
| when_begin.

Definition _convert_when (w : when_value) : R :=
  match w with
  | when_end => 0
  | when_begin => 1
  end.

(** ** to_rent_or_to_own.py: the Parameter Set built from the form *)

Record widgets : Type := mkWidgets {
  house_value : R;
  monthly_income_input : R;
  price_to_rent_slider : Z;
  equity_return_slider : R;
  num_years_slider : Z;
  real_estate_return_slider : R;
  mortgage_rate_slider : R;
  downpayment_slider : Z;
  misc_costs_slider : R
}.

(** The bounds the sliders enforce on what they return. *)
Definition sliders_in_range (w : widgets) : Prop :=
  (1 <= price_to_rent_slider w <= 100)%Z
  /\ 0 <= equity_return_slider w <= 20
  /\ (1 <= num_years_slider w <= 50)%Z
  /\ 0 <= real_estate_return_slider w <= 20
  /\ 0 <= mortgage_rate_slider w <= 20
  /\ (0 <= downpayment_slider w <= 100)%Z
  /\ 0 <= misc_costs_slider w <= 10.

Definition set_base_rent_per_year (v : R) (p : Parameters) : Parameters :=
  mkParameters (roi_real_estate p) (roi_stocks p) (mortgage_interest_rate p)
    (base_house_misc_costs p) (downpayment_ratio p) (base_house_equity p)
    (price_to_rent_ratio p) v (num_years p) (monthly_income p).

Definition define_inputs (w : widgets) : result Parameters :=
  let params :=
    mkParameters
      (1 / 100 * real_estate_return_slider w)
      (1 / 100 * equity_return_slider w)
      (1 / 100 * mortgage_rate_slider w)
      (1 / 100 * misc_costs_slider w)
      (1 / 100 * IZR (downpayment_slider w))
      (house_value w)
      (IZR (price_to_rent_slider w))
      (base_rent_per_year Parameters_default)
      (num_years_slider w)
      (monthly_income_input w) in
  rent <- truediv (base_house_equity params) (price_to_rent_ratio params) ;;
  Ok (set_base_rent_per_year rent params).

(** ** Concrete data

    The two parameter sets of [utils_test.py], and the scenario of a house of
    500000 at a price-to-rent ratio of 25 with every rate at zero. *)

Definition get_default_parameters : Parameters :=
  mkParameters (5 / 100) (7 / 100) (4 / 100) 2 (2 / 10) 500000 25 20000 30%Z 0.


(** [get_balanced_rent_no_growth_parameters] of [utils_test.py]. *)
Definition get_balanced_rent_no_growth_parameters (house_value : R)
  : Parameters :=
  let num_years := 30%Z in
  let downpayment := 2 / 10 in
  let rent := house_value * (1 - downpayment) / IZR num_years in
  let price_to_rent := if Rlt_dec 0 rent then house_value / rent else 0 in
  mkParameters 0 0 0 0 downpayment house_value price_to_rent rent num_years 0.

(** [Parameters(base_house_equity=100, price_to_rent_ratio=10, num_years=1)]:
    the remaining fields at their defaults. *)
Definition underived_parameters : Parameters :=
  mkParameters 0 0 0 0 0 100 10 0 1%Z 0.

(** The default parameters of [utils_test.py] with the real-estate rate at
    minus one, a total loss within the year. *)
Definition total_loss_parameters : Parameters :=
  mkParameters (-1) (7 / 100) (4 / 100) 2 (2 / 10) 500000 25 20000 30%Z 0.

(** The values the form shows before the user touches it. *)
Definition default_widgets : widgets :=
  mkWidgets 700000 5000 38%Z (1005 / 100) 20%Z (65 / 10) 6 20%Z 2.

(** Eleven calls with no override: the next step closes the first year. *)
Definition eleven_months : list (option R * option R) := repeat (None, None) 11.

(** Twelve calls with no override, one simulated year. *)
Definition one_year : list (option R * option R) := repeat (None, None) 12.

(** An instance of the float power on the reals: [exp (y * ln x)] for a
    positive base, [x ** 0 = 1], and [0 ** y = 0] for the positive exponents
    the engine uses. *)
Definition real_pow (x y : R) : R :=
  if Rlt_dec 0 x then Rpower x y
  else if Req_dec_T y 0 then 1
  else 0.

Section Engine.

(** The float power [x ** y], as Python computes it on floats and numpy on
    its scalars.  It is kept abstract: the engine only ever raises
    [1 + rate] to [1 / MONTHS] or to a number of periods, and no result
    below depends on more than the properties it assumes explicitly.  (For
    a negative base and a fractional exponent Python answers with a complex
    number; such runs are outside this real-valued model.) *)
Variable fpow : R -> R -> R.

Definition npf_pmt (rate nper pv fv : R) (when_ : when_value) : R :=
  let when_ := _convert_when when_ in
  let temp := fpow (1 + rate) nper in
  let mask := Req_dec_T rate 0 in
  let masked_rate := if mask then 1 else rate in
  let fact :=
    if mask then nper
    else (1 + masked_rate * when_) * (temp - 1) / masked_rate in
  - (fv + pv * temp) / fact.

(** ** utils.py: the mortgage payment, free function and method *)

Definition get_monthly_mortgage_repayment (params : Parameters) : R :=
  let monthly_mortgage_rate :=
    fpow (1 + mortgage_interest_rate params) (1 / IZR MONTHS) - 1 in
  - npf_pmt monthly_mortgage_rate
      (IZR (num_years params * MONTHS))
      (base_house_equity params * (1 - downpayment_ratio params))
      0 when_end.

Definition monthly_mortgage (self : FinancialStatus) : R :=
  let monthly_mortgage_rate :=
    fpow (1 + mortgage_interest_rate (params self)) (1 / IZR MONTHS) - 1 in
  - npf_pmt monthly_mortgage_rate
      (IZR (num_years (params self) * MONTHS))
      (base_house_equity (params self)
       * (1 - downpayment_ratio (params self)))
      0 when_end.

(** ** utils.py: construction *)

Definition _instantiate_internal_state (self : FinancialStatus)
  : result FinancialStatus :=
  match decision self with
  | Member BUY =>
      let self := set_equity_real_estate (base_house_equity (params self)) self in
      let self :=
        set_latest_taxable_house_value (base_house_equity (params self)) self in
      let self :=
        set_remaining_mortgage_equity
          (base_house_equity (params self)
           * (1 - downpayment_ratio (params self))) self in
      let self := set_equity_stocks 0 self in
      Ok (set_monthly_expenses
            (get_monthly_mortgage_repayment (params self)
             + monthly_misc_costs self) self)
  | Member RENT =>
      let self := set_equity_real_estate 0 self in
      let self := set_remaining_mortgage_equity 0 self in
      let self :=
        set_equity_stocks
          (base_house_equity (params self) * downpayment_ratio (params self))
          self in
      Ok (set_monthly_expenses
            (base_rent_per_year (params self) / IZR MONTHS) self)
  | NotMember _ =>
      Raise (ValueError ("Invalid decision: " ++ Decision_str (decision self)))
  end.

(** [FinancialStatus(decision, params)], that is [__init__]. *)
Definition FinancialStatus_init (decision : decision_value)
    (params : Parameters) : result FinancialStatus :=
  let self :=
    mkStatus params decision (monthly_income params)
      0 0 0 0 0 1 (relativedelta_new 0 0) in
  self <- _instantiate_internal_state self ;;
  Ok (set_time (relativedelta_new 0 0) self).

(** ** utils.py: the monthly step *)

Definition annual_reevaluations (self : FinancialStatus) : FinancialStatus :=
  let self :=
    set_latest_taxable_house_value
      (base_house_equity (params self) * _cumulative_real_estate_roi self)
      self in
  match decision self with
  | Member BUY =>
      set_monthly_expenses (monthly_mortgage self + monthly_misc_costs self)
        self
  | Member RENT =>
      set_monthly_expenses
        (base_rent_per_year (params self) * _cumulative_real_estate_roi self
         / IZR MONTHS) self
  | NotMember _ => self
  end.

Definition increment_by_month (self : FinancialStatus)
    (roi_stocks_ roi_real_estate_ : option R) : result FinancialStatus :=
  let self :=
    set_time (relativedelta_add (time self) (relativedelta_new 0 1)) self in
  let roi_stocks_ :=
    match roi_stocks_ with
    | None => roi_stocks (params self)
    | Some r => r
    end in
  let roi_real_estate_ :=
    match roi_real_estate_ with
    | None => roi_real_estate (params self)
    | Some r => r
    end in
  let self :=
    set_equity_stocks
      (equity_stocks self * fpow (1 + roi_stocks_) (1 / IZR MONTHS)) self in
  let self :=
    set_equity_real_estate
      (equity_real_estate self * fpow (1 + roi_real_estate_) (1 / IZR MONTHS))
      self in
  let self :=
    set_cumulative_real_estate_roi
      (_cumulative_real_estate_roi self
       * fpow (1 + roi_real_estate_) (1 / IZR MONTHS)) self in
  let self :=
    set_equity_stocks (equity_stocks self + monthly_excess self) self in
  self <-
    match decision self with
    | Member BUY =>
        step <-
          truediv
            (base_house_equity (params self)
             * (1 - downpayment_ratio (params self)))
            (IZR (num_years (params self) * MONTHS)) ;;
        Ok (set_remaining_mortgage_equity
              (remaining_mortgage_equity self - step) self)
    | _ => Ok self
    end ;;
  if (months (time self) mod MONTHS =? 0)%Z
  then Ok (annual_reevaluations self)
  else Ok self.

(** A sequence of monthly steps, each with its own optional overrides
    [(roi_stocks, roi_real_estate)]. *)
Fixpoint advance (self : FinancialStatus) (calls : list (option R * option R))
  : result FinancialStatus :=
  match calls with
  | [] => Ok self
  | (rs, rr) :: calls' =>
      self <- increment_by_month self rs rr ;;
      advance self calls'
  end.

(** Construction followed by the given calls. *)
Definition run (d : decision_value) (p : Parameters)
    (calls : list (option R * option R)) : result FinancialStatus :=
  self <- FinancialStatus_init d p ;;
  advance self calls.

(** ** to_rent_or_to_own.py: the sampling loop *)

Fixpoint simulate_loop (n : nat) (buy rent : FinancialStatus)
  : result (list R * list R) :=
  match n with
  | O => Ok ([], [])
  | S n' =>
      let b := net_worth buy in
      let r := net_worth rent in
      buy <- increment_by_month buy None None ;;
      rent <- increment_by_month rent None None ;;
      rest <- simulate_loop n' buy rent ;;
      Ok (b :: fst rest, r :: snd rest)
  end.

(** [range(n)] has [max 0 n] elements. *)
Definition range_len (n : Z) : nat := Z.to_nat n.

Definition simulate (buy rent : FinancialStatus)
  : result (list R * list R * list R) :=
  let n := range_len (num_years (params buy) * MONTHS) in
  let times := map (fun i => INR i / IZR MONTHS) (seq 0 n) in
  series <- simulate_loop n buy rent ;;
  Ok (fst series, snd series, times).


(** The override given to a call, or the default of the parameter set. *)
Definition effective (arg : option R) (default : R) : R :=
  match arg with
  | None => default
  | Some r => r
  end.

(** The monthly growth factor of an annual rate. *)
Definition monthly_factor (annual_rate : R) : R :=
  fpow (1 + annual_rate) (1 / IZR MONTHS).

(** The straight-line repayment of one month. *)
Definition straight_line_step (p : Parameters) : R :=
  base_house_equity p * (1 - downpayment_ratio p) / IZR (num_years p * MONTHS).

(** Months elapsed, as a [relativedelta] counts them. *)
Definition elapsed_months (t : relativedelta) : Z :=
  (years t * 12 + months t)%Z.

(** What a step that returns has done to each attribute. *)
Record step_effect (s s' : FinancialStatus) (rs rr : option R) : Prop := {
  eff_params : params s' = params s;
  eff_decision : decision s' = decision s;
  eff_income : self_monthly_income s' = self_monthly_income s;
  eff_time : time s' = relativedelta_add (time s) (relativedelta_new 0 1);
  eff_stocks :
    equity_stocks s'
    = equity_stocks s * monthly_factor (effective rs (roi_stocks (params s)))
      + monthly_excess s;
  eff_real_estate :
    equity_real_estate s'
    = equity_real_estate s
      * monthly_factor (effective rr (roi_real_estate (params s)));
  eff_cumulative :
    _cumulative_real_estate_roi s'
    = _cumulative_real_estate_roi s
      * monthly_factor (effective rr (roi_real_estate (params s)));
  eff_mortgage :
    remaining_mortgage_equity s'
    = match decision s with
      | Member BUY => remaining_mortgage_equity s - straight_line_step (params s)
      | _ => remaining_mortgage_equity s
      end;
  eff_boundary :
    (months (time s') mod MONTHS = 0)%Z ->
    latest_taxable_house_value s'
    = base_house_equity (params s) * _cumulative_real_estate_roi s'
    /\ monthly_expenses s'
       = match decision s with
         | Member BUY => monthly_mortgage s' + monthly_misc_costs s'
         | Member RENT =>
             base_rent_per_year (params s) * _cumulative_real_estate_roi s'
             / IZR MONTHS
         | NotMember _ => monthly_expenses s
         end;
  eff_within_year :
    (months (time s') mod MONTHS <> 0)%Z ->
    latest_taxable_house_value s' = latest_taxable_house_value s
    /\ monthly_expenses s' = monthly_expenses s
}.



(** [n] calls with the default arguments, as [simulate] makes them. *)
Definition default_calls (n : nat) : list (option R * option R) :=
  repeat (None, None) n.

(** The real-estate growth factors a sequence of calls applies. *)
Definition applied_factors (p : Parameters)
    (calls : list (option R * option R)) : list R :=
  map (fun c => monthly_factor (effective (snd c) (roi_real_estate p))) calls.

Definition product (l : list R) : R := fold_right Rmult 1 l.


(** A state whose monthly step returns: not a Buy state with a horizon of
    0 years. *)
Definition can_step (s : FinancialStatus) : Prop :=
  decision s = Member BUY -> num_years (params s) <> 0%Z.

(** [calculate_monthly_financials] of [utils.py]. *)
Definition calculate_monthly_financials (params : Parameters)
  : result (R * R * R) :=
  let monthly_mortgage_ := get_monthly_mortgage_repayment params in
  quotient <-
    truediv (base_house_equity params) (price_to_rent_ratio params) ;;
  let monthly_rent := quotient / IZR MONTHS in
  let monthly_misc_costs_ :=
    base_house_misc_costs params * base_house_equity params / IZR MONTHS in
  Ok (monthly_mortgage_, monthly_rent, monthly_misc_costs_).







(** * Properties *)

(** ** The clock *)

Lemma fix_elapsed (d : relativedelta) :
  (0 <= months d)%Z ->
  elapsed_months (_fix d) = elapsed_months d
  /\ (0 <= months (_fix d) < 12)%Z.
Proof.
  intros Hm. unfold _fix, elapsed_months.
  destruct (Z.ltb_spec 11 (Z.abs (months d))) as [Hbig | Hsmall].
  - assert (Hs : _sign (months d) = 1%Z).
    { unfold _sign. destruct (Z.ltb_spec (months d) 0); [lia | reflexivity]. }
    rewrite Hs. cbn [years months]. rewrite !Z.mul_1_r.
    pose proof (Z.div_mod (months d) 12 ltac:(lia)) as Hdm.
    pose proof (Z.mod_pos_bound (months d) 12 ltac:(lia)) as Hb.
    split; lia.
  - split; [reflexivity | lia].
Qed.

Lemma one_month : relativedelta_new 0 1 = mkDelta 0 1.
Proof. reflexivity. Qed.

Lemma tick_elapsed (t : relativedelta) :
  (0 <= months t < 12)%Z ->
  let t' := relativedelta_add t (relativedelta_new 0 1) in
  elapsed_months t' = (elapsed_months t + 1)%Z /\ (0 <= months t' < 12)%Z.
Proof.
  intros Hm t'. subst t'. unfold relativedelta_add, relativedelta_new at 1.
  rewrite one_month. cbn [years months].
  destruct (fix_elapsed (mkDelta (0 + years t) (1 + months t))) as [He Hb].
  { cbn [months]. lia. }
  split; [| exact Hb].
  rewrite He. unfold elapsed_months. cbn [years months]. lia.
Qed.

Lemma months_is_remainder (t : relativedelta) :
  (0 <= months t < 12)%Z ->
  months t = (elapsed_months t mod 12)%Z.
Proof.
  intros Hb. unfold elapsed_months.
  apply (Z.mod_unique _ _ (years t)); lia.
Qed.

(** ** One monthly step, field by field *)

Lemma periods_nonzero (p : Parameters) :
  num_years p <> 0%Z -> IZR (num_years p * MONTHS) <> 0.
Proof.
  intros Hn H. apply eq_IZR_R0 in H. unfold MONTHS in H. lia.
Qed.

Lemma truediv_ok (a b : R) : b <> 0 -> truediv a b = Ok (a / b).
Proof.
  intros Hb. unfold truediv. destruct (Req_dec_T b 0); [contradiction | reflexivity].
Qed.

Lemma truediv_zero (a : R) : truediv a 0 = Raise ZeroDivisionError.
Proof.
  unfold truediv. destruct (Req_dec_T 0 0); [reflexivity | contradiction].
Qed.

Lemma increment_returns (s : FinancialStatus) (rs rr : option R) :
  (decision s = Member BUY -> num_years (params s) <> 0%Z) ->
  exists s', increment_by_month s rs rr = Ok s'.
Proof.
  intros Hn. unfold increment_by_month. cbn.
  destruct (decision s) as [[|]|repr] eqn:Hd; cbn.
  - destruct (_ =? 0)%Z; eexists; reflexivity.
  - rewrite truediv_ok by (apply periods_nonzero; auto). cbn.
    destruct (_ =? 0)%Z; eexists; reflexivity.
  - destruct (_ =? 0)%Z; eexists; reflexivity.
Qed.

Ltac close_step_effect Hd Hb :=
  intros [= <-]; unfold annual_reevaluations; cbn; rewrite ?Hd; cbn;
  constructor; cbn; rewrite ?Hd;
  try reflexivity;
  try (intros Hm; first
         [ split; reflexivity
         | exfalso; apply Z.eqb_neq in Hb; apply Hb; exact Hm
         | exfalso; apply Z.eqb_eq in Hb; apply Hm; exact Hb ]);
  try (repeat match goal with o : option R |- _ => destruct o end;
       reflexivity).

Lemma increment_effect (s s' : FinancialStatus) (rs rr : option R) :
  increment_by_month s rs rr = Ok s' -> step_effect s s' rs rr.
Proof.
  unfold increment_by_month. cbn.
  destruct (decision s) as [[|]|repr] eqn:Hd; cbn.
  - destruct (_ =? 0)%Z eqn:Hb; close_step_effect Hd Hb.
  - unfold truediv. destruct (Req_dec_T _ 0) as [Hz | Hz]; cbn; [discriminate |].
    destruct (_ =? 0)%Z eqn:Hb; close_step_effect Hd Hb.
  - destruct (_ =? 0)%Z eqn:Hb; close_step_effect Hd Hb.
Qed.

(** ** Construction, spelled out *)

Lemma init_buy (p : Parameters) :
  FinancialStatus_init (Member BUY) p
  = Ok (mkStatus p (Member BUY) (monthly_income p)
          (base_house_equity p) 0 (base_house_equity p)
          (base_house_equity p * (1 - downpayment_ratio p))
          (get_monthly_mortgage_repayment p
           + base_house_misc_costs p * base_house_equity p / IZR MONTHS)
          1 (mkDelta 0 0)).
Proof. reflexivity. Qed.

Lemma init_rent (p : Parameters) :
  FinancialStatus_init (Member RENT) p
  = Ok (mkStatus p (Member RENT) (monthly_income p)
          0 (base_house_equity p * downpayment_ratio p) 0 0
          (base_rent_per_year p / IZR MONTHS) 1 (mkDelta 0 0)).
Proof. reflexivity. Qed.

Lemma init_not_member (repr : string) (p : Parameters) :
  FinancialStatus_init (NotMember repr) p
  = Raise (ValueError ("Invalid decision: " ++ repr)).
Proof. reflexivity. Qed.

(** ** Sequences of steps *)

Lemma advance_returns (calls : list (option R * option R)) :
  forall s,
    (decision s = Member BUY -> num_years (params s) <> 0%Z) ->
    exists s', advance s calls = Ok s'.
Proof.
  induction calls as [| [rs rr] calls IH]; intros s Hn; cbn.
  - eexists; reflexivity.
  - destruct (increment_returns s rs rr Hn) as [s1 H1]. rewrite H1. cbn.
    destruct (increment_effect _ _ _ _ H1) as [Hp Hd _ _ _ _ _ _ _ _].
    apply IH. rewrite Hp, Hd. exact Hn.
Qed.

Lemma advance_static (calls : list (option R * option R)) :
  forall s s',
    advance s calls = Ok s' ->
    params s' = params s /\ decision s' = decision s
    /\ self_monthly_income s' = self_monthly_income s.
Proof.
  induction calls as [| [rs rr] calls IH]; intros s s'; cbn.
  - intros [= <-]. auto.
  - destruct (increment_by_month s rs rr) as [s1 |] eqn:H1; cbn; [| discriminate].
    intros H. destruct (IH _ _ H) as (Hp & Hd & Hi).
    destruct (increment_effect _ _ _ _ H1) as [Hp1 Hd1 Hi1 _ _ _ _ _ _ _].
    rewrite Hp, Hd, Hi. auto.
Qed.

Lemma advance_clock (calls : list (option R * option R)) :
  forall s s',
    (0 <= months (time s) < 12)%Z ->
    advance s calls = Ok s' ->
    (0 <= months (time s') < 12)%Z
    /\ elapsed_months (time s')
       = (elapsed_months (time s) + Z.of_nat (List.length calls))%Z.
Proof.
  induction calls as [| [rs rr] calls IH]; intros s s' Hb; cbn [advance].
  - intros [= <-]. cbn [List.length]. split; [exact Hb | lia].
  - destruct (increment_by_month s rs rr) as [s1 |] eqn:H1; cbn [bind]; [| discriminate].
    intros H.
    destruct (increment_effect _ _ _ _ H1) as [_ _ _ Ht _ _ _ _ _ _].
    destruct (tick_elapsed (time s) Hb) as [He Hb1]. rewrite <- Ht in He, Hb1.
    destruct (IH _ _ Hb1 H) as [Hb' He'].
    split; [exact Hb' |]. rewrite He', He. cbn [List.length]. lia.
Qed.

Lemma advance_app (c1 c2 : list (option R * option R)) :
  forall s, advance s (c1 ++ c2) = (s1 <- advance s c1 ;; advance s1 c2).
Proof.
  induction c1 as [| [rs rr] c1 IH]; intros s; cbn; [reflexivity |].
  destruct (increment_by_month s rs rr); cbn; [apply IH | reflexivity].
Qed.


Lemma advance_mortgage_rent (calls : list (option R * option R)) :
  forall s s',
    decision s = Member RENT ->
    advance s calls = Ok s' ->
    remaining_mortgage_equity s' = remaining_mortgage_equity s.
Proof.
  induction calls as [| [rs rr] calls IH]; intros s s' Hd; cbn [advance].
  - intros [= <-]. reflexivity.
  - destruct (increment_by_month s rs rr) as [s1 |] eqn:H1; cbn [bind]; [| discriminate].
    intros H.
    destruct (increment_effect _ _ _ _ H1) as [_ Hd1 _ _ _ _ _ Hm _ _].
    rewrite Hd in Hm, Hd1. rewrite (IH _ _ Hd1 H). exact Hm.
Qed.

(** ** The claims about a single step *)

(** C4.  A monthly step, for either strategy and whatever overrides the call
    gives, returns a state in which the stock balance is the old balance
    grown by the monthly factor of the stock rate plus the monthly excess of
    the state before the step (the excess itself is not grown), and in
    which the real-estate balance and the cumulative real-estate factor are
    both multiplied by the monthly factor of the real-estate rate.  (A Buy
    step divides by the number of periods, so it needs a non-zero horizon
    to return.) *)
Theorem increment_grows_then_adds_excess
    (s : FinancialStatus) (rs rr : option R) :
  (decision s = Member BUY -> num_years (params s) <> 0%Z) ->
  exists s',
    increment_by_month s rs rr = Ok s'
    /\ equity_stocks s'
       = equity_stocks s
         * fpow (1 + effective rs (roi_stocks (params s))) (1 / IZR MONTHS)
         + monthly_excess s
    /\ equity_real_estate s'
       = equity_real_estate s
         * fpow (1 + effective rr (roi_real_estate (params s))) (1 / IZR MONTHS)
    /\ _cumulative_real_estate_roi s'
       = _cumulative_real_estate_roi s
         * fpow (1 + effective rr (roi_real_estate (params s))) (1 / IZR MONTHS).
Proof.
  intros Hn. destruct (increment_returns s rs rr Hn) as [s' H].
  exists s'. split; [exact H |].
  destruct (increment_effect _ _ _ _ H) as [_ _ _ _ Hs Hre Hc _ _ _].
  auto.
Qed.


(** An invariant indexed by the number of steps taken is carried along any
    sequence of calls. *)
Lemma advance_invariant (I : Z -> FinancialStatus -> Prop)
    (calls : list (option R * option R)) :
  (forall n s s' c,
      In c calls -> (0 <= n)%Z -> I n s ->
      increment_by_month s (fst c) (snd c) = Ok s' -> I (n + 1)%Z s') ->
  forall n s s',
    (0 <= n)%Z -> I n s -> advance s calls = Ok s' ->
    I (n + Z.of_nat (List.length calls))%Z s'.
Proof.
  induction calls as [| [rs rr] calls IH]; intros Hstep n s s' Hn HI; cbn [advance].
  - intros [= <-]. cbn. rewrite Z.add_0_r. exact HI.
  - destruct (increment_by_month s rs rr) as [s1 |] eqn:H1; cbn [bind]; [| discriminate].
    intros H.
    assert (HI1 : I (n + 1)%Z s1).
    { apply (Hstep n s s1 (rs, rr)); auto. left; reflexivity. }
    replace (n + Z.of_nat (List.length ((rs, rr) :: calls)))%Z
      with ((n + 1) + Z.of_nat (List.length calls))%Z
      by (cbn [List.length]; lia).
    apply IH with (s := s1); auto; [| lia].
    intros m t t' c Hc. apply Hstep. right; exact Hc.
Qed.

(** The clock of a state reached from construction counts the calls. *)
Lemma run_clock (d : decision_value) (p : Parameters)
    (calls : list (option R * option R)) (s : FinancialStatus) :
  run d p calls = Ok s ->
  params s = p /\ decision s = d
  /\ (0 <= months (time s) < 12)%Z
  /\ elapsed_months (time s) = Z.of_nat (List.length calls).
Proof.
  unfold run.
  destruct (FinancialStatus_init d p) as [s0 |] eqn:H0; cbn [bind]; [| discriminate].
  intros H.
  assert (Hs0 : params s0 = p /\ decision s0 = d /\ time s0 = mkDelta 0 0).
  { destruct d as [[|] | repr].
    - rewrite init_rent in H0. injection H0 as <-. auto.
    - rewrite init_buy in H0. injection H0 as <-. auto.
    - rewrite init_not_member in H0. discriminate. }
  destruct Hs0 as (Hp & Hd & Ht).
  destruct (advance_static _ _ _ H) as (Hp' & Hd' & _).
  destruct (advance_clock calls s0 s) as [Hb He]; [rewrite Ht; cbn; lia | exact H |].
  rewrite Ht in He. cbn in He.
  repeat split; try congruence; try lia.
Qed.

Lemma run_keeps_params (d : decision_value) (p : Parameters)
    (calls : list (option R * option R)) (s : FinancialStatus) :
  run d p calls = Ok s -> params s = p.
Proof.
  intros H. destruct (run_clock _ _ _ _ H) as (Hp & _). exact Hp.
Qed.

Lemma run_returns (d : Decision) (p : Parameters)
    (calls : list (option R * option R)) :
  (d = BUY -> num_years p <> 0%Z) ->
  exists s, run (Member d) p calls = Ok s.
Proof.
  intros Hn. unfold run.
  destruct d.
  - rewrite init_rent. cbn [bind]. apply advance_returns. cbn. discriminate.
  - rewrite init_buy. cbn [bind]. apply advance_returns. cbn. auto.
Qed.

Lemma run_snoc (d : decision_value) (p : Parameters)
    (calls : list (option R * option R)) (c : option R * option R) :
  run d p (calls ++ [c])
  = (s <- run d p calls ;; increment_by_month s (fst c) (snd c)).
Proof.
  unfold run. destruct (FinancialStatus_init d p) as [s0 |]; cbn [bind]; [| reflexivity].
  rewrite advance_app. destruct (advance s0 calls) as [s |]; cbn [bind]; [| reflexivity].
  destruct c as [rs rr]. cbn [advance fst snd].
  destruct (increment_by_month s rs rr); reflexivity.
Qed.

(** ** Construction *)


(** C8.  Construction raises exactly when the decision is neither BUY nor
    RENT, and then what it raises is the invalid-decision [ValueError]; for
    BUY and RENT it returns a simulator; a construction that raised has
    returned no simulator. *)
Theorem construction_raises_iff_invalid_decision
    (d : decision_value) (p : Parameters) :
  ((exists e, FinancialStatus_init d p = Raise e)
   <-> d <> Member BUY /\ d <> Member RENT)
  /\ (forall e,
         FinancialStatus_init d p = Raise e ->
         e = ValueError ("Invalid decision: " ++ Decision_str d)
         /\ forall s, FinancialStatus_init d p <> Ok s)
  /\ (d = Member BUY \/ d = Member RENT ->
      exists s, FinancialStatus_init d p = Ok s
                /\ decision s = d /\ params s = p).
Proof.
  destruct d as [[|] | repr].
  - rewrite init_rent. split; [split |].
    + intros [e He]. discriminate.
    + intros [_ H]. contradiction.
    + split; [intros e He; discriminate |].
      intros _. eexists. split; [reflexivity | auto].
  - rewrite init_buy. split; [split |].
    + intros [e He]. discriminate.
    + intros [H _]. contradiction.
    + split; [intros e He; discriminate |].
      intros _. eexists. split; [reflexivity | auto].
  - rewrite init_not_member. split; [split |].
    + intros _. split; discriminate.
    + intros _. eexists; reflexivity.
    + split.
      * intros e [= <-]. split; [reflexivity | discriminate].
      * intros [H | H]; discriminate.
Qed.

(** ** The mortgage payment *)

Lemma monthly_mortgage_is_repayment (s : FinancialStatus) :
  monthly_mortgage s = get_monthly_mortgage_repayment (params s).
Proof. reflexivity. Qed.

Lemma buy_expenses_step (s s' : FinancialStatus) (rs rr : option R) :
  decision s = Member BUY ->
  monthly_expenses s
  = get_monthly_mortgage_repayment (params s) + monthly_misc_costs s ->
  increment_by_month s rs rr = Ok s' ->
  monthly_expenses s'
  = get_monthly_mortgage_repayment (params s') + monthly_misc_costs s'.
Proof.
  intros Hd Hinv H.
  destruct (increment_effect _ _ _ _ H) as [Hp _ _ _ _ _ _ _ Hyes Hno].
  rewrite Hd in Hyes.
  destruct (Z.eq_dec (months (time s') mod MONTHS) 0) as [Hb | Hb].
  - destruct (Hyes Hb) as [_ He]. rewrite He. apply f_equal2; reflexivity.
  - destruct (Hno Hb) as [Hl He]. rewrite He, Hinv.
    unfold monthly_misc_costs. rewrite Hl, Hp. reflexivity.
Qed.

(** C7.  The payment computed by the method used at the annual
    re-evaluation equals the one computed by the free function used at
    construction, for every state; hence in every state a Buy simulator
    reaches, monthly_expenses is that one payment plus the current
    miscellaneous costs. *)
Theorem mortgage_payment_is_the_same_every_year
    (p : Parameters) (calls : list (option R * option R)) :
  num_years p <> 0%Z ->
  (forall s, monthly_mortgage s = get_monthly_mortgage_repayment (params s))
  /\ exists s,
       run (Member BUY) p calls = Ok s
       /\ monthly_mortgage s = get_monthly_mortgage_repayment p
       /\ monthly_expenses s
          = get_monthly_mortgage_repayment p + monthly_misc_costs s.
Proof.
  intros Hn. split; [exact monthly_mortgage_is_repayment |].
  destruct (run_returns BUY p calls (fun _ => Hn)) as [s H].
  exists s. split; [exact H |].
  destruct (run_clock _ _ _ _ H) as (Hp & Hd & _).
  split; [rewrite monthly_mortgage_is_repayment, Hp; reflexivity |].
  unfold run in H. rewrite init_buy in H. cbn [bind] in H.
  pose (I := fun (_ : Z) (t : FinancialStatus) =>
               decision t = Member BUY /\ params t = p
               /\ monthly_expenses t
                  = get_monthly_mortgage_repayment (params t)
                    + monthly_misc_costs t).
  assert (HI : I (0 + Z.of_nat (List.length calls))%Z s).
  { eapply (advance_invariant I calls); [| lia | | exact H].
    - intros n t t' c _ _ (Htd & Htp & Hte) Hstep.
      destruct (increment_effect _ _ _ _ Hstep) as [Hp' Hd' _ _ _ _ _ _ _ _].
      repeat split; [congruence | congruence |].
      eapply buy_expenses_step; eauto.
    - repeat split. }
  destruct HI as (_ & _ & He). rewrite He, Hp. reflexivity.
Qed.

Lemma repayment_zero_rate (p : Parameters) :
  (forall y, fpow 1 y = 1) ->
  mortgage_interest_rate p = 0 ->
  num_years p <> 0%Z ->
  get_monthly_mortgage_repayment p
  = base_house_equity p * (1 - downpayment_ratio p)
    / IZR (num_years p * MONTHS).
Proof.
  intros Hpow Hr Hn. pose proof (periods_nonzero p Hn) as HN.
  unfold get_monthly_mortgage_repayment, npf_pmt.
  rewrite Hr, Rplus_0_r, Hpow.
  replace (1 - 1) with 0 by ring.
  destruct (Req_dec_T 0 0) as [_ | Hne]; [| contradiction].
  rewrite Rplus_0_r, Hpow. field. exact HN.
Qed.

(** C9.  With a zero mortgage rate and at least one year, the monthly
    payment is the principal divided by the number of periods, so that
    payment * num_years * 12 is the principal base_house_equity *
    (1 - downpayment_ratio).  (The float power is used at base 1 only, where
    it gives 1.) *)
Theorem zero_interest_payment_repays_principal (p : Parameters) :
  (forall y, fpow 1 y = 1) ->
  mortgage_interest_rate p = 0 ->
  (1 <= num_years p)%Z ->
  get_monthly_mortgage_repayment p
  = base_house_equity p * (1 - downpayment_ratio p)
    / IZR (num_years p * MONTHS)
  /\ get_monthly_mortgage_repayment p * IZR (num_years p) * IZR MONTHS
     = base_house_equity p * (1 - downpayment_ratio p).
Proof.
  intros Hpow Hr Hn.
  assert (Hpay := repayment_zero_rate p Hpow Hr ltac:(lia)).
  split; [exact Hpay |].
  assert (Hy : IZR (num_years p) <> 0)
    by (intro H0; apply eq_IZR_R0 in H0; lia).
  assert (Hm : IZR MONTHS <> 0) by (unfold MONTHS; lra).
  rewrite Hpay, mult_IZR. field. auto.
Qed.

(** ** The annual boundary *)

Lemma step_clock (s s' : FinancialStatus) (rs rr : option R) (n : Z) :
  (0 <= months (time s) < 12)%Z ->
  elapsed_months (time s) = n ->
  increment_by_month s rs rr = Ok s' ->
  (0 <= months (time s') < 12)%Z
  /\ elapsed_months (time s') = (n + 1)%Z
  /\ (months (time s') mod MONTHS = (n + 1) mod 12)%Z.
Proof.
  intros Hb He H.
  destruct (increment_effect _ _ _ _ H) as [_ _ _ Ht _ _ _ _ _ _].
  destruct (tick_elapsed (time s) Hb) as [He' Hb']. rewrite <- Ht in He', Hb'.
  split; [exact Hb' |]. split; [rewrite He', He; reflexivity |].
  rewrite (months_is_remainder _ Hb'), He', He.
  unfold MONTHS. apply Z.mod_mod. lia.
Qed.

(** C6.  Take a simulator after any sequence of calls from construction and
    one more monthly step, the n-th.  The guard of the annual re-evaluation
    holds on that step exactly when n is a multiple of 12.  When it is,
    latest_taxable_house_value becomes base_house_equity times the cumulative
    real-estate factor and monthly_expenses is recomputed (Rent:
    base_rent_per_year * cumulative factor / 12; Buy: mortgage payment plus
    miscellaneous costs); when it is not, both fields are left as they
    were. *)
Theorem annual_reevaluation_exactly_every_twelfth_step
    (d : Decision) (p : Parameters) (calls : list (option R * option R))
    (rs rr : option R) :
  (d = BUY -> num_years p <> 0%Z) ->
  exists s s',
    run (Member d) p calls = Ok s
    /\ increment_by_month s rs rr = Ok s'
    /\ let n := (Z.of_nat (List.length calls) + 1)%Z in
       ((months (time s') mod MONTHS = 0)%Z <-> (n mod 12 = 0)%Z)
       /\ ((n mod 12 = 0)%Z ->
           latest_taxable_house_value s'
           = base_house_equity p * _cumulative_real_estate_roi s'
           /\ monthly_expenses s'
              = match d with
                | BUY => monthly_mortgage s' + monthly_misc_costs s'
                | RENT =>
                    base_rent_per_year p * _cumulative_real_estate_roi s'
                    / IZR MONTHS
                end)
       /\ ((n mod 12 <> 0)%Z ->
           latest_taxable_house_value s' = latest_taxable_house_value s
           /\ monthly_expenses s' = monthly_expenses s).
Proof.
  intros Hn.
  destruct (run_returns d p calls Hn) as [s Hs].
  destruct (run_clock _ _ _ _ Hs) as (Hp & Hd & Hb & He).
  destruct (increment_returns s rs rr) as [s' Hs'].
  { rewrite Hd, Hp. intros [= ->]. auto. }
  exists s, s'. split; [exact Hs |]. split; [exact Hs' |].
  destruct (step_clock _ _ _ _ _ Hb He Hs') as (_ & _ & Hm).
  destruct (increment_effect _ _ _ _ Hs') as [_ _ _ _ _ _ _ _ Hyes Hno].
  rewrite Hd, Hp in Hyes. cbv zeta.
  split; [rewrite Hm; reflexivity |]. split.
  - intros H0. rewrite <- Hm in H0. destruct (Hyes H0) as [Hl Hx].
    split; [exact Hl |]. rewrite Hx. destruct d; reflexivity.
  - intros H0. rewrite <- Hm in H0. exact (Hno H0).
Qed.

(** ** Rent and the taxable house value *)

Lemma misc_costs_zero (s : FinancialStatus) :
  latest_taxable_house_value s = 0 -> monthly_misc_costs s = 0.
Proof.
  intros H. unfold monthly_misc_costs. rewrite H. unfold MONTHS. field.
Qed.

Lemma misc_costs_nonzero (s : FinancialStatus) :
  base_house_misc_costs (params s) <> 0 ->
  latest_taxable_house_value s <> 0 ->
  monthly_misc_costs s <> 0.
Proof.
  intros Hc Hl. unfold monthly_misc_costs, MONTHS, Rdiv.
  apply Rmult_integral_contrapositive_currified.
  - apply Rmult_integral_contrapositive_currified; assumption.
  - apply Rinv_neq_0_compat. lra.
Qed.

Lemma rent_taxable_value (p : Parameters)
    (calls : list (option R * option R)) (s : FinancialStatus) :
  run (Member RENT) p calls = Ok s ->
  ((List.length calls < 12)%nat -> latest_taxable_house_value s = 0)
  /\ (List.length calls = 12%nat ->
      latest_taxable_house_value s
      = base_house_equity p * _cumulative_real_estate_roi s)
  /\ ((12 <= List.length calls)%nat ->
      base_house_equity p <> 0 ->
      (forall x, 0 < x -> 0 < fpow x (1 / IZR MONTHS)) ->
      Forall (fun c => 0 < 1 + effective (snd c) (roi_real_estate p)) calls ->
      latest_taxable_house_value s <> 0).
Proof.
  intros Hs.
  pose (POS := (forall x, 0 < x -> 0 < fpow x (1 / IZR MONTHS))
               /\ Forall (fun c => 0 < 1 + effective (snd c) (roi_real_estate p))
                    calls
               /\ base_house_equity p <> 0).
  pose (I := fun (n : Z) (t : FinancialStatus) =>
               decision t = Member RENT /\ params t = p
               /\ (0 <= months (time t) < 12)%Z
               /\ elapsed_months (time t) = n
               /\ ((n < 12)%Z -> latest_taxable_house_value t = 0)
               /\ (n = 12%Z ->
                   latest_taxable_house_value t
                   = base_house_equity p * _cumulative_real_estate_roi t)
               /\ (POS ->
                   0 < _cumulative_real_estate_roi t
                   /\ ((12 <= n)%Z -> latest_taxable_house_value t <> 0))).
  assert (HI : I (0 + Z.of_nat (List.length calls))%Z s).
  { unfold run in Hs. rewrite init_rent in Hs. cbn [bind] in Hs.
    eapply (advance_invariant I calls); [| lia | | exact Hs].
    - intros n t t' [rs rr] Hin Hn0 (Hd & Hpt & Hb & He & Hlt & _ & Hpos) Hstep.
      cbn [fst snd] in Hstep.
      destruct (step_clock _ _ _ _ _ Hb He Hstep) as (Hb' & He' & Hm).
      destruct (increment_effect _ _ _ _ Hstep)
        as [Hp' Hd' _ _ _ _ Hc _ Hyes Hno].
      rewrite Hpt in Hyes, Hc. rewrite Hd in Hyes.
      assert (Hwithin : (months (time t') mod MONTHS <> 0)%Z ->
                        latest_taxable_house_value t'
                        = latest_taxable_house_value t)
        by (intros Hx; apply (Hno Hx)).
      assert (Hbound : (months (time t') mod MONTHS = 0)%Z ->
                       latest_taxable_house_value t'
                       = base_house_equity p * _cumulative_real_estate_roi t')
        by (intros Hx; apply (Hyes Hx)).
      rewrite Hm in Hwithin, Hbound.
      unfold I.
      split; [congruence |]. split; [congruence |].
      split; [exact Hb' |]. split; [exact He' |].
      split; [| split].
      + intros Hlt'. rewrite Hwithin; [apply Hlt; lia |].
        rewrite Z.mod_small by lia. lia.
      + intros Heq. apply Hbound. rewrite Heq. reflexivity.
      + intros HP. destruct (Hpos HP) as [Hcpos Hnz].
        destruct HP as (Hf & Hall & Hbhe).
        assert (Hc' : 0 < _cumulative_real_estate_roi t').
        { rewrite Hc. apply Rmult_lt_0_compat; [exact Hcpos |].
          apply Hf. rewrite Forall_forall in Hall. apply (Hall _ Hin). }
        split; [exact Hc' |]. intros Hge.
        destruct (Z.eq_dec ((n + 1) mod 12) 0) as [Hz | Hz].
        * rewrite (Hbound Hz).
          apply Rmult_integral_contrapositive_currified; [exact Hbhe | lra].
        * rewrite (Hwithin Hz). apply Hnz.
          destruct (Z.eq_dec (n + 1) 12) as [H12 | H12]; [| lia].
          rewrite H12 in Hz. cbn in Hz. contradiction.
    - unfold I. cbn.
      split; [reflexivity |]. split; [reflexivity |].
      split; [lia |]. split; [reflexivity |].
      split; [reflexivity |]. split; [discriminate |].
      intros _. split; [lra | lia]. }
  destruct HI as (_ & _ & _ & _ & Hlt & Heq & Hpos).
  split; [| split].
  - intros Hlen. apply Hlt. lia.
  - intros Hlen. apply Heq. lia.
  - intros Hlen Hbhe Hf Hall.
    destruct Hpos as [_ Hnz]; [unfold POS; auto |].
    apply Hnz. lia.
Qed.

(** If the cumulative real-estate factor is zero, or some call is still to
    come and every call applies a zero factor, the cumulative factor ends at
    zero. *)
Lemma advance_cumulative_vanishes (calls : list (option R * option R)) :
  forall s s',
    (_cumulative_real_estate_roi s = 0 \/ calls <> []) ->
    (forall c, In c calls ->
               monthly_factor (effective (snd c) (roi_real_estate (params s)))
               = 0) ->
    advance s calls = Ok s' ->
    _cumulative_real_estate_roi s' = 0.
Proof.
  induction calls as [| [rs rr] calls IH]; intros s s' Hz Hall; cbn [advance].
  - intros [= <-]. destruct Hz as [Hz | Hz]; [exact Hz | contradiction].
  - destruct (increment_by_month s rs rr) as [s1 |] eqn:H1; cbn [bind]; [| discriminate].
    intros H.
    destruct (increment_effect _ _ _ _ H1) as [Hp _ _ _ _ _ Hc _ _ _].
    apply (IH s1 s'); [left | | exact H].
    + pose proof (Hall (rs, rr) (or_introl eq_refl)) as Hf.
      cbn [snd] in Hf. rewrite Hc, Hf. ring.
    + intros c Hin. rewrite Hp. apply Hall. right; exact Hin.
Qed.

(** C10, as the code has it.  A Rent simulator has latest_taxable_house_value
    0, hence miscellaneous costs 0, at construction and after each of the
    first eleven steps; the twelfth step sets latest_taxable_house_value to
    base_house_equity times the cumulative real-estate factor; from then on,
    when base_house_misc_costs and base_house_equity are non-zero and the
    growth factors applied are positive (1 + rate positive at every step),
    the miscellaneous costs of the Rent simulator are non-zero. *)
Theorem rent_misc_costs_appear_after_first_year
    (p : Parameters) (calls : list (option R * option R)) :
  exists s,
    run (Member RENT) p calls = Ok s
    /\ ((List.length calls < 12)%nat ->
        latest_taxable_house_value s = 0 /\ monthly_misc_costs s = 0)
    /\ (List.length calls = 12%nat ->
        latest_taxable_house_value s
        = base_house_equity p * _cumulative_real_estate_roi s)
    /\ ((12 <= List.length calls)%nat ->
        base_house_misc_costs p <> 0 ->
        base_house_equity p <> 0 ->
        (forall x, 0 < x -> 0 < fpow x (1 / IZR MONTHS)) ->
        Forall (fun c => 0 < 1 + effective (snd c) (roi_real_estate p)) calls ->
        latest_taxable_house_value s <> 0 /\ monthly_misc_costs s <> 0).
Proof.
  destruct (run_returns RENT p calls) as [s Hs]; [discriminate |].
  exists s. split; [exact Hs |].
  pose proof (run_keeps_params _ _ _ _ Hs) as Hp.
  destruct (rent_taxable_value p calls s Hs) as (Hlt & Heq & Hnz).
  split; [| split].
  - intros Hlen. split; [| apply misc_costs_zero]; apply Hlt; exact Hlen.
  - exact Heq.
  - intros Hlen Hmisc Hbhe Hf Hall.
    assert (Hl : latest_taxable_house_value s <> 0) by (apply Hnz; assumption).
    split; [exact Hl |]. apply misc_costs_nonzero; [rewrite Hp |]; assumption.
Qed.

(** ** The scenario with every rate at zero *)

Section Scenario.

Hypothesis fpow_one : forall y, fpow 1 y = 1.






End Scenario.


(** ** The Parameter Set *)


(** C1, as the code has it.  The data class stores the base_rent_per_year it
    is given.  It is [define_inputs] that derives the field: for widget
    values within the sliders' bounds it returns a parameter set whose
    base_rent_per_year is base_house_equity / price_to_rent_ratio (a non-zero
    divisor), and no simulator built on a parameter set ever changes it:
    every state reached from construction still holds the same parameters. *)
Theorem define_inputs_derives_base_rent (w : widgets) :
  sliders_in_range w ->
  (forall a b c d e f g h i j,
      base_rent_per_year (mkParameters a b c d e f g h i j) = h)
  /\ exists p,
       define_inputs w = Ok p
       /\ base_house_equity p = house_value w
       /\ price_to_rent_ratio p = IZR (price_to_rent_slider w)
       /\ price_to_rent_ratio p <> 0
       /\ base_rent_per_year p = base_house_equity p / price_to_rent_ratio p
       /\ forall d calls s,
            run d p calls = Ok s ->
            params s = p
            /\ base_rent_per_year (params s)
               = base_house_equity (params s) / price_to_rent_ratio (params s).
Proof.
  intros (Hptr & _). split; [reflexivity |].
  assert (Hnz : IZR (price_to_rent_slider w) <> 0).
  { intros H0. apply eq_IZR_R0 in H0. lia. }
  unfold define_inputs. cbn [base_house_equity price_to_rent_ratio].
  rewrite truediv_ok by exact Hnz. cbn [bind].
  eexists. split; [reflexivity |]. cbn.
  split; [reflexivity |]. split; [reflexivity |]. split; [exact Hnz |].
  split; [reflexivity |].
  intros d calls s H. rewrite (run_keeps_params _ _ _ _ H). cbn.
  split; reflexivity.
Qed.

(** * Further properties of the simulator *)

(** ** Elapsed time *)

(** After any calls from construction the clock shows whole years and the
    months of the current year: years = calls / 12, months = calls mod 12. *)
Theorem time_counts_calls
    (d : Decision) (p : Parameters) (calls : list (option R * option R)) :
  (d = BUY -> num_years p <> 0%Z) ->
  exists s,
    run (Member d) p calls = Ok s
    /\ years (time s) = (Z.of_nat (List.length calls) / 12)%Z
    /\ months (time s) = (Z.of_nat (List.length calls) mod 12)%Z.
Proof.
  intros Hn. destruct (run_returns d p calls Hn) as [s Hs].
  exists s. split; [exact Hs |].
  destruct (run_clock _ _ _ _ Hs) as (_ & _ & Hb & He).
  unfold elapsed_months in He. split.
  - apply (Z.div_unique _ 12 _ (months (time s))); lia.
  - apply (Z.mod_unique _ 12 (years (time s))); lia.
Qed.

(** ** The cumulative real-estate factor *)

Lemma advance_cumulative (calls : list (option R * option R)) :
  forall s s',
    advance s calls = Ok s' ->
    _cumulative_real_estate_roi s'
    = _cumulative_real_estate_roi s
      * product (applied_factors (params s) calls).
Proof.
  induction calls as [| [rs rr] calls IH]; intros s s'; cbn [advance].
  - intros [= <-]. cbn. ring.
  - destruct (increment_by_month s rs rr) as [s1 |] eqn:H1; cbn [bind]; [| discriminate].
    intros H.
    destruct (increment_effect _ _ _ _ H1) as [Hp _ _ _ _ _ Hc _ _ _].
    rewrite (IH _ _ H), Hc, Hp. cbn [applied_factors map product fold_right snd].
    fold (applied_factors (params s) calls).
    fold (product (applied_factors (params s) calls)). ring.
Qed.

(** The cumulative real-estate factor of a simulator is the product of the
    monthly factors its calls applied, each taken from the call's override
    or else from the parameters; it starts at 1. *)
Theorem cumulative_roi_is_running_product
    (d : Decision) (p : Parameters) (calls : list (option R * option R)) :
  (d = BUY -> num_years p <> 0%Z) ->
  exists s,
    run (Member d) p calls = Ok s
    /\ _cumulative_real_estate_roi s = product (applied_factors p calls).
Proof.
  intros Hn. destruct (run_returns d p calls Hn) as [s Hs].
  exists s. split; [exact Hs |].
  unfold run in Hs. destruct d.
  - rewrite init_rent in Hs. cbn [bind] in Hs.
    rewrite (advance_cumulative _ _ _ Hs). cbn [_cumulative_real_estate_roi params].
    ring.
  - rewrite init_buy in Hs. cbn [bind] in Hs.
    rewrite (advance_cumulative _ _ _ Hs). cbn [_cumulative_real_estate_roi params].
    ring.
Qed.

(** ** What each strategy holds *)



Lemma advance_no_real_estate (calls : list (option R * option R)) :
  forall s s',
    equity_real_estate s = 0 ->
    advance s calls = Ok s' ->
    equity_real_estate s' = 0.
Proof.
  induction calls as [| [rs rr] calls IH]; intros s s' H0; cbn [advance].
  - intros [= <-]. exact H0.
  - destruct (increment_by_month s rs rr) as [s1 |] eqn:H1; cbn [bind]; [| discriminate].
    intros H.
    destruct (increment_effect _ _ _ _ H1) as [_ _ _ _ _ Hr _ _ _ _].
    apply (IH s1 s'); [| exact H]. rewrite Hr, H0. ring.
Qed.

(** A Rent simulator never holds real estate nor owes a mortgage, whatever
    the calls and their overrides: its net worth is its stock balance. *)
Theorem rent_net_worth_is_stock_balance
    (p : Parameters) (calls : list (option R * option R)) :
  exists s,
    run (Member RENT) p calls = Ok s
    /\ equity_real_estate s = 0
    /\ net_worth s = equity_stocks s.
Proof.
  destruct (run_returns RENT p calls) as [s Hs]; [discriminate |].
  exists s. split; [exact Hs |].
  unfold run in Hs. rewrite init_rent in Hs. cbn [bind] in Hs.
  assert (Hre : equity_real_estate s = 0)
    by (eapply advance_no_real_estate; [| exact Hs]; reflexivity).
  assert (Hm : remaining_mortgage_equity s = 0)
    by (erewrite advance_mortgage_rent; [| | exact Hs]; reflexivity).
  split; [exact Hre |]. unfold net_worth. rewrite Hre, Hm. ring.
Qed.

(** ** The end of the horizon and beyond *)


(** ** When a step raises *)

(** A monthly step raises exactly when the simulator is a Buy simulator
    whose horizon is 0 years, and what it raises is ZeroDivisionError;
    construction itself returns for such parameters. *)
Theorem step_raises_iff_buy_with_zero_horizon
    (s : FinancialStatus) (rs rr : option R) :
  ((exists e, increment_by_month s rs rr = Raise e)
   <-> decision s = Member BUY /\ num_years (params s) = 0%Z)
  /\ (forall e, increment_by_month s rs rr = Raise e -> e = ZeroDivisionError)
  /\ (forall p, exists s0, FinancialStatus_init (Member BUY) p = Ok s0).
Proof.
  assert (Hraise : decision s = Member BUY -> num_years (params s) = 0%Z ->
                   increment_by_month s rs rr = Raise ZeroDivisionError).
  { intros Hd Hn. unfold increment_by_month. cbn.
    rewrite Hd, Hn. cbn. rewrite truediv_zero. reflexivity. }
  assert (Hcases : (decision s = Member BUY /\ num_years (params s) = 0%Z)
                   \/ (decision s = Member BUY -> num_years (params s) <> 0%Z)).
  { destruct (Z.eq_dec (num_years (params s)) 0) as [Hz | Hz]; [| right; auto].
    destruct (decision s) as [[|] | repr].
    - right; discriminate.
    - left; auto.
    - right; discriminate. }
  split; [split |]; [| | split].
  - intros [e He]. destruct Hcases as [H | H]; [exact H |].
    destruct (increment_returns s rs rr H) as [s' Hs']. congruence.
  - intros [Hd Hn]. eexists. apply Hraise; assumption.
  - intros e He. destruct Hcases as [[Hd Hn] | H].
    + rewrite (Hraise Hd Hn) in He. congruence.
    + destruct (increment_returns s rs rr H) as [s' Hs']. congruence.
  - intros p. eexists. apply init_buy.
Qed.

(** ** No growth *)








(** ** The sampling loop *)

Lemma can_step_preserved (s s' : FinancialStatus) (rs rr : option R) :
  can_step s -> increment_by_month s rs rr = Ok s' -> can_step s'.
Proof.
  intros Hc H. destruct (increment_effect _ _ _ _ H) as [Hp Hd _ _ _ _ _ _ _ _].
  unfold can_step. rewrite Hp, Hd. exact Hc.
Qed.

Lemma nth_map_seq (f : nat -> R) (n k : nat) (d : R) :
  (k < n)%nat -> nth k (map f (seq 0 n)) d = f k.
Proof.
  intros Hk.
  rewrite (nth_indep _ d (f 0%nat)) by (rewrite length_map, length_seq; exact Hk).
  rewrite (map_nth f (seq 0 n) 0%nat k), seq_nth by exact Hk. reflexivity.
Qed.

Lemma simulate_loop_samples (n : nat) :
  forall buy rent,
    can_step buy -> can_step rent ->
    exists bs rs,
      simulate_loop n buy rent = Ok (bs, rs)
      /\ List.length bs = n /\ List.length rs = n
      /\ forall k, (k < n)%nat ->
           exists b r,
             advance buy (default_calls k) = Ok b
             /\ advance rent (default_calls k) = Ok r
             /\ nth k bs 0 = net_worth b
             /\ nth k rs 0 = net_worth r.
Proof.
  induction n as [| n IH]; intros buy rent Hb Hr; cbn [simulate_loop].
  - exists [], []. repeat split. intros k Hk. lia.
  - destruct (increment_returns buy None None Hb) as [buy' Hb'].
    destruct (increment_returns rent None None Hr) as [rent' Hr'].
    rewrite Hb', Hr'. cbn [bind].
    destruct (IH buy' rent' (can_step_preserved _ _ _ _ Hb Hb')
                (can_step_preserved _ _ _ _ Hr Hr'))
      as (bs & rs & Hloop & Hlb & Hlr & Hnth).
    rewrite Hloop. cbn [bind fst snd].
    exists (net_worth buy :: bs), (net_worth rent :: rs).
    split; [reflexivity |].
    split; [cbn [List.length]; congruence |].
    split; [cbn [List.length]; congruence |].
    intros [| k] Hk.
    + exists buy, rent. repeat split.
    + destruct (Hnth k ltac:(lia)) as (b & r & Hab & Har & Hnb & Hnr).
      exists b, r. unfold default_calls. cbn [repeat advance nth].
      rewrite Hb', Hr'. cbn [bind]. auto.
Qed.

Lemma simulate_series (buy rent : FinancialStatus) :
  can_step buy -> can_step rent ->
  exists bs rs ts,
    simulate buy rent = Ok (bs, rs, ts)
    /\ List.length bs = range_len (num_years (params buy) * MONTHS)
    /\ List.length rs = List.length bs
    /\ List.length ts = List.length bs
    /\ forall k, (k < List.length bs)%nat ->
         nth k ts 0 = INR k / IZR MONTHS
         /\ exists b r,
              advance buy (default_calls k) = Ok b
              /\ advance rent (default_calls k) = Ok r
              /\ nth k bs 0 = net_worth b
              /\ nth k rs 0 = net_worth r.
Proof.
  intros Hb Hr. unfold simulate.
  set (n := range_len (num_years (params buy) * MONTHS)).
  destruct (simulate_loop_samples n buy rent Hb Hr)
    as (bs & rs & Hloop & Hlb & Hlr & Hnth).
  rewrite Hloop. cbn [bind fst snd].
  do 3 eexists. split; [reflexivity |].
  split; [exact Hlb |]. split; [congruence |].
  split; [rewrite length_map, length_seq; congruence |].
  intros k Hk. rewrite Hlb in Hk. split; [| apply Hnth; exact Hk].
  apply nth_map_seq. exact Hk.
Qed.

(** [simulate] returns, for simulators that can step, three series of
    num_years * 12 entries (the horizon of the first simulator): entry k of
    each net-worth series is the net worth after k default steps, taken
    before step k + 1, and entry k of the time axis is k / 12 years.  The net
    worth after the last step is not sampled. *)
Theorem simulate_samples_before_each_step (buy rent : FinancialStatus) :
  can_step buy -> can_step rent ->
  exists bs rs ts,
    simulate buy rent = Ok (bs, rs, ts)
    /\ List.length bs = range_len (num_years (params buy) * MONTHS)
    /\ List.length rs = List.length bs
    /\ List.length ts = List.length bs
    /\ forall k, (k < List.length bs)%nat ->
         nth k ts 0 = INR k / IZR MONTHS
         /\ exists b r,
              advance buy (default_calls k) = Ok b
              /\ advance rent (default_calls k) = Ok r
              /\ nth k bs 0 = net_worth b
              /\ nth k rs 0 = net_worth r.
Proof. exact (simulate_series buy rent). Qed.

(** With a horizon of zero or fewer years [simulate] returns three empty
    series and steps neither simulator, so it does not raise even for a Buy
    simulator that could not take a step. *)
Theorem simulate_empty_without_horizon (buy rent : FinancialStatus) :
  (num_years (params buy) <= 0)%Z ->
  simulate buy rent = Ok ([], [], []).
Proof.
  intros Hn. unfold simulate, range_len.
  assert (H0 : Z.to_nat (num_years (params buy) * MONTHS) = 0%nat)
    by (unfold MONTHS; lia).
  rewrite H0. reflexivity.
Qed.

(** ** The form *)

(** [define_inputs] raises exactly when the price-to-rent slider gives 0 (a
    value its bounds exclude), and then raises ZeroDivisionError: the
    division that derives the rent is not guarded. *)
Theorem define_inputs_raises_iff_zero_ratio (w : widgets) :
  ((exists e, define_inputs w = Raise e) <-> price_to_rent_slider w = 0%Z)
  /\ (forall e, define_inputs w = Raise e -> e = ZeroDivisionError).
Proof.
  unfold define_inputs. cbn [base_house_equity price_to_rent_ratio].
  destruct (Z.eq_dec (price_to_rent_slider w) 0) as [Hz | Hz].
  - rewrite Hz, truediv_zero. cbn [bind]. split; [split |].
    + reflexivity.
    + intros _. eexists; reflexivity.
    + intros e [= <-]. reflexivity.
  - rewrite truediv_ok by (intros H0; apply eq_IZR_R0 in H0; contradiction).
    cbn [bind]. split; [split |].
    + intros [e He]. discriminate.
    + intros H0. contradiction.
    + intros e He. discriminate.
Qed.

(** Widget values within the sliders' bounds give a parameter set within
    the domains the simulator expects: every rate in [0, 0.2], the
    miscellaneous cost rate in [0, 0.1], the downpayment ratio in [0, 1], the
    price-to-rent ratio in [1, 100] and between 1 and 50 years; house value
    and income are passed through. *)
Theorem define_inputs_within_domain (w : widgets) :
  sliders_in_range w ->
  exists p,
    define_inputs w = Ok p
    /\ 0 <= roi_real_estate p <= 2 / 10
    /\ 0 <= roi_stocks p <= 2 / 10
    /\ 0 <= mortgage_interest_rate p <= 2 / 10
    /\ 0 <= base_house_misc_costs p <= 1 / 10
    /\ 0 <= downpayment_ratio p <= 1
    /\ 1 <= price_to_rent_ratio p <= 100
    /\ (1 <= num_years p <= 50)%Z
    /\ base_house_equity p = house_value w
    /\ monthly_income p = monthly_income_input w.
Proof.
  intros (Hptr & Heq & Hny & Hre & Hmr & Hdp & Hmc).
  assert (Hnz : IZR (price_to_rent_slider w) <> 0).
  { intros H0. apply eq_IZR_R0 in H0. lia. }
  unfold define_inputs. cbn [base_house_equity price_to_rent_ratio].
  rewrite truediv_ok by exact Hnz. cbn [bind].
  eexists. split; [reflexivity |].
  unfold set_base_rent_per_year.
  cbn [roi_real_estate roi_stocks mortgage_interest_rate base_house_misc_costs
       downpayment_ratio price_to_rent_ratio num_years base_house_equity
       monthly_income].
  assert (H1 : 1 <= IZR (price_to_rent_slider w) <= 100)
    by (split; apply IZR_le; lia).
  assert (H2 : 0 <= IZR (downpayment_slider w) <= 100)
    by (split; apply IZR_le; lia).
  repeat split; try lra; try lia.
Qed.



(** ** The monthly figures of the legacy interface *)

(** [calculate_monthly_financials] raises ZeroDivisionError when the
    price-to-rent ratio is 0.  Otherwise it returns the mortgage payment, the
    rent base_house_equity / price_to_rent_ratio / 12 and the miscellaneous
    costs of the first year; payment plus miscellaneous costs are the
    monthly expenses a Buy simulator starts with, and the rent is what a Rent
    simulator starts with whenever base_rent_per_year is base_house_equity /
    price_to_rent_ratio. *)
Theorem monthly_financials_agree_with_construction (p : Parameters) :
  (price_to_rent_ratio p = 0 ->
   calculate_monthly_financials p = Raise ZeroDivisionError)
  /\ (price_to_rent_ratio p <> 0 ->
      exists payment rent misc buy renter,
        calculate_monthly_financials p = Ok (payment, rent, misc)
        /\ rent = base_house_equity p / price_to_rent_ratio p / 12
        /\ FinancialStatus_init (Member BUY) p = Ok buy
        /\ FinancialStatus_init (Member RENT) p = Ok renter
        /\ monthly_mortgage buy = payment
        /\ monthly_misc_costs buy = misc
        /\ monthly_expenses buy = payment + misc
        /\ (base_rent_per_year p
            = base_house_equity p / price_to_rent_ratio p ->
            monthly_expenses renter = rent)).
Proof.
  unfold calculate_monthly_financials. split.
  - intros Hz. rewrite Hz, truediv_zero. reflexivity.
  - intros Hnz. rewrite truediv_ok by exact Hnz. cbn [bind].
    rewrite init_buy, init_rent.
    do 5 eexists. split; [reflexivity |]. split; [reflexivity |].
    split; [reflexivity |]. split; [reflexivity |].
    split; [reflexivity |].
    split; [reflexivity |]. split; [reflexivity |].
    intros Hrent. cbn [monthly_expenses]. rewrite Hrent. reflexivity.
Qed.

(** ** Compounding over whole years *)






(** ** The legacy closed formulas *)




(** ** The markers of the plot *)



End Engine.

(** ** The float power on the reals *)

Lemma real_pow_one (y : R) : real_pow 1 y = 1.
Proof.
  unfold real_pow. destruct (Rlt_dec 0 1) as [_ | H]; [| lra].
  unfold Rpower. rewrite ln_1, Rmult_0_r. apply exp_0.
Qed.

Lemma real_pow_pos (x y : R) : 0 < x -> 0 < real_pow x y.
Proof.
  intros Hx. unfold real_pow. destruct (Rlt_dec 0 x) as [_ | H]; [| contradiction].
  unfold Rpower. apply exp_pos.
Qed.

(** ** The data class does not derive the rent *)

(** C1, as the specification words it, fails on the data class:
    [Parameters(base_house_equity=100, price_to_rent_ratio=10, num_years=1)]
    is a constructed parameter set whose base_rent_per_year is the default 0,
    not 100 / 10. *)
Lemma constructor_does_not_derive_base_rent :
  price_to_rent_ratio underived_parameters <> 0
  /\ base_rent_per_year underived_parameters
     <> base_house_equity underived_parameters
        / price_to_rent_ratio underived_parameters.
Proof.
  unfold underived_parameters. cbn. split; lra.
Qed.

(** ** The theorems at concrete inputs *)

Lemma default_widgets_in_range : sliders_in_range default_widgets.
Proof.
  unfold sliders_in_range, default_widgets. cbn.
  repeat split; try lia; lra.
Defined.

Lemma define_inputs_derives_base_rent_at_defaults :
  sliders_in_range default_widgets
  /\ exists p,
       define_inputs default_widgets = Ok p
       /\ base_rent_per_year p = base_house_equity p / price_to_rent_ratio p.
Proof.
  split; [exact default_widgets_in_range |].
  destruct (define_inputs_derives_base_rent real_pow default_widgets
              default_widgets_in_range)
    as (_ & p & Hp & _ & _ & _ & Hrent & _).
  exists p. split; [exact Hp | exact Hrent].
Defined.


Lemma increment_grows_then_adds_excess_at_default_buy :
  exists s s',
    FinancialStatus_init real_pow (Member BUY) get_default_parameters = Ok s
    /\ increment_by_month real_pow s None None = Ok s'
    /\ equity_stocks s'
       = equity_stocks s * real_pow (1 + 7 / 100) (1 / IZR MONTHS)
         + monthly_excess s.
Proof.
  rewrite init_buy. eexists.
  match goal with
  | |- exists s', Ok ?s0 = Ok _ /\ _ =>
      destruct (increment_grows_then_adds_excess real_pow s0 None None)
        as (s' & Hs' & Hstocks & _)
  end.
  - intros _. cbn. discriminate.
  - exists s'. split; [reflexivity |]. split; [exact Hs' | exact Hstocks].
Defined.


Lemma annual_reevaluation_at_twelfth_step :
  exists s s',
    run real_pow (Member BUY) get_default_parameters eleven_months = Ok s
    /\ increment_by_month real_pow s None None = Ok s'
    /\ latest_taxable_house_value s'
       = base_house_equity get_default_parameters
         * _cumulative_real_estate_roi s'.
Proof.
  destruct (annual_reevaluation_exactly_every_twelfth_step real_pow BUY
              get_default_parameters eleven_months None None)
    as (s & s' & Hs & Hs' & _ & Hyes & _).
  - intros _. cbn. discriminate.
  - exists s, s'. split; [exact Hs |]. split; [exact Hs' |].
    apply Hyes. reflexivity.
Defined.

Lemma mortgage_payment_is_the_same_after_one_year :
  exists s,
    run real_pow (Member BUY) get_default_parameters one_year = Ok s
    /\ monthly_expenses s
       = get_monthly_mortgage_repayment real_pow get_default_parameters
         + monthly_misc_costs s.
Proof.
  destruct (mortgage_payment_is_the_same_every_year real_pow
              get_default_parameters one_year)
    as (_ & s & Hs & _ & He).
  - cbn. discriminate.
  - exists s. split; [exact Hs | exact He].
Defined.

Lemma zero_interest_payment_on_balanced_parameters :
  get_monthly_mortgage_repayment real_pow
    (get_balanced_rent_no_growth_parameters 500000)
  * IZR 30 * IZR MONTHS
  = 500000 * (1 - 2 / 10).
Proof.
  apply (zero_interest_payment_repays_principal real_pow
           (get_balanced_rent_no_growth_parameters 500000) real_pow_one).
  - reflexivity.
  - cbn. lia.
Defined.

Lemma rent_misc_costs_after_one_year :
  exists s,
    run real_pow (Member RENT) get_default_parameters one_year = Ok s
    /\ latest_taxable_house_value s
       = base_house_equity get_default_parameters
         * _cumulative_real_estate_roi s
    /\ monthly_misc_costs s <> 0.
Proof.
  destruct (rent_misc_costs_appear_after_first_year real_pow
              get_default_parameters one_year)
    as (s & Hs & _ & Heq & Hnz).
  exists s. split; [exact Hs |]. split; [apply Heq; reflexivity |].
  apply Hnz.
  - cbn. lia.
  - cbn. lra.
  - cbn. lra.
  - intros x Hx. apply real_pow_pos. exact Hx.
  - unfold one_year. cbn. repeat constructor; cbn; lra.
Defined.

(** ** A real-estate rate of minus one *)

Lemma real_pow_zero_base (y : R) : 0 < y -> real_pow 0 y = 0.
Proof.
  intros Hy. unfold real_pow.
  destruct (Rlt_dec 0 0) as [H | _]; [lra |].
  destruct (Req_dec_T y 0) as [H | _]; [lra | reflexivity].
Qed.

Lemma total_loss_factor :
  monthly_factor real_pow (roi_real_estate total_loss_parameters) = 0.
Proof.
  unfold monthly_factor, total_loss_parameters. cbn [roi_real_estate].
  replace (1 + -1) with 0 by ring.
  apply real_pow_zero_base. unfold MONTHS. lra.
Qed.

Lemma run_rent_start (fpow : R -> R -> R) (p : Parameters)
    (calls : list (option R * option R)) :
  run fpow (Member RENT) p calls
  = advance fpow
      (mkStatus p (Member RENT) (monthly_income p)
         0 (base_house_equity p * downpayment_ratio p) 0 0
         (base_rent_per_year p / IZR MONTHS) 1 (mkDelta 0 0)) calls.
Proof. unfold run. rewrite init_rent. reflexivity. Qed.

Lemma total_loss_cumulative (s : FinancialStatus) :
  run real_pow (Member RENT) total_loss_parameters one_year = Ok s ->
  _cumulative_real_estate_roi s = 0.
Proof.
  rewrite run_rent_start. intros Hs.
  apply (advance_cumulative_vanishes real_pow one_year _ s) in Hs; [exact Hs | |].
  - right. unfold one_year. discriminate.
  - intros c Hin. apply repeat_spec in Hin. rewrite Hin.
    exact total_loss_factor.
Qed.

Lemma rent_misc_costs_stay_zero_at_total_loss :
  base_house_misc_costs total_loss_parameters <> 0
  /\ base_house_equity total_loss_parameters <> 0
  /\ exists s,
       run real_pow (Member RENT) total_loss_parameters one_year = Ok s
       /\ latest_taxable_house_value s = 0
       /\ monthly_misc_costs s = 0.
Proof.
  split; [unfold total_loss_parameters; cbn [base_house_misc_costs]; lra |].
  split; [unfold total_loss_parameters; cbn [base_house_equity]; lra |].
  destruct (run_returns real_pow RENT total_loss_parameters one_year)
    as [s Hs]; [discriminate |].
  exists s. split; [exact Hs |].
  assert (Hl : latest_taxable_house_value s = 0).
  { destruct (rent_taxable_value real_pow _ _ _ Hs) as (_ & Heq & _).
    rewrite (Heq eq_refl), (total_loss_cumulative s Hs). ring. }
  split; [exact Hl | apply misc_costs_zero; exact Hl].
Qed.

(** ** The further properties at concrete inputs *)



Lemma default_horizon : num_years get_default_parameters <> 0%Z.
Proof. unfold get_default_parameters. cbn [num_years]. discriminate. Defined.



Lemma time_counts_calls_after_one_year :
  exists s,
    run real_pow (Member BUY) get_default_parameters one_year = Ok s
    /\ years (time s) = 1%Z /\ months (time s) = 0%Z.
Proof.
  exact (time_counts_calls real_pow BUY get_default_parameters one_year
           (fun _ => default_horizon)).
Defined.

Lemma cumulative_roi_after_one_overridden_call :
  exists s,
    run real_pow (Member RENT) get_default_parameters [(None, Some 0)] = Ok s
    /\ _cumulative_real_estate_roi s
       = product
           (applied_factors real_pow get_default_parameters [(None, Some 0)]).
Proof.
  apply (cumulative_roi_is_running_product real_pow RENT).
  discriminate.
Defined.






Lemma simulate_samples_for_default_parameters :
  exists buy rent bs rs ts,
    FinancialStatus_init real_pow (Member BUY) get_default_parameters = Ok buy
    /\ FinancialStatus_init real_pow (Member RENT) get_default_parameters
       = Ok rent
    /\ simulate real_pow buy rent = Ok (bs, rs, ts)
    /\ List.length bs = 360%nat.
Proof.
  rewrite init_buy, init_rent. do 2 eexists.
  match goal with
  | |- exists bs rs ts, Ok ?b = Ok _ /\ Ok ?r = Ok _ /\ _ =>
      destruct (simulate_samples_before_each_step real_pow b r)
        as (bs & rs & ts & Hsim & Hlen & _)
  end.
  - intros _. exact default_horizon.
  - intros H. discriminate H.
  - exists bs, rs, ts. split; [reflexivity |]. split; [reflexivity |].
    split; [exact Hsim | exact Hlen].
Defined.

Lemma simulate_empty_for_blank_parameters :
  exists buy rent,
    FinancialStatus_init real_pow (Member BUY) Parameters_default = Ok buy
    /\ FinancialStatus_init real_pow (Member RENT) Parameters_default = Ok rent
    /\ simulate real_pow buy rent = Ok ([], [], []).
Proof.
  rewrite init_buy, init_rent. do 2 eexists.
  split; [reflexivity |]. split; [reflexivity |].
  apply simulate_empty_without_horizon. cbn. lia.
Defined.

Lemma define_inputs_within_domain_at_defaults :
  exists p,
    define_inputs default_widgets = Ok p
    /\ 0 <= downpayment_ratio p <= 1
    /\ (1 <= num_years p <= 50)%Z.
Proof.
  destruct (define_inputs_within_domain default_widgets
              default_widgets_in_range)
    as (p & Hp & _ & _ & _ & _ & Hd & _ & Hn & _).
  exists p. split; [exact Hp |]. split; [exact Hd | exact Hn].
Defined.





